(** * sitemaptool: the partitioning and bookkeeping engine of [main.go]

    A shallow embedding of the sitemap manager of abraham-ny/sitemaptool.
    The Go methods of [*SitemapManager] are state transformers over the
    manager's fields (its two mutexes among them) and the world it runs in
    (the files of the output directory, the clock, the paths the operating
    system refuses to write).

    Conventions of the embedding:
    - a Go [int] is a [Z]; no count of this program comes near 2^63;
    - a Go [map[string]bool] is a [gmap string bool]; a nil map reads like an
      empty one, and the two are identified;
    - [encoding/json] and [encoding/xml] are represented by the documents they
      encode: a file holds the value its decoder would return, or bytes that
      no decoder accepts;
    - [crypto/sha256] and [time.Format] are the platform's, taken as
      operations of a [Platform];
    - [filepath.Join] is concatenation with a separator (no [Clean]);
    - [sync.Mutex] and [sync.RWMutex] are not reentrant: a goroutine that
      locks a mutex it already holds never proceeds ([Deadlock]);
    - the goroutine started by [go sm.PingSearchEngines()] talks to the
      network only and has no part in this state. *)

From Stdlib Require Import PrimFloat Ascii.
From stdpp Require Import gmap strings pretty list fin_maps.

Local Open Scope Z_scope.

(** ** Constants *)

Definition MAX_URLS_PER_SITEMAP : Z := 50000.
Definition SITEMAP_NAMESPACE : string :=
  "http://www.sitemaps.org/schemas/sitemap/0.9".

(** ** Data model *)

(** [time.Time], as nanoseconds since the epoch. *)
Definition Time : Type := Z.

Record Config := mkConfig {
  OutputDir : string;
  BaseURL : string;
  SitemapPrefix : string;
  PingOnUpdate : bool;
  PingEngines : list string;
  DefaultChangefreq : string;
  DefaultPriority : float;
  RespectRobots : bool;
  VCSAware : bool;
  RobotsPath : string;
  CheckUpdates : bool
}.

Record SitemapInfo := mkSitemapInfo {
  Filename : string;
  URLCount : Z;
  LastMod : Time
}.

Record Database := mkDatabase {
  Sitemaps : list SitemapInfo;
  URLHashes : gmap string bool;
  CurrentSitemap : string;
  LastUpdated : Time
}.

Record URL := mkURL {
  URL_Loc : string;
  URL_LastMod : string;
  URL_ChangeFreq : string;
  URL_Priority : float
}.

Record URLSet := mkURLSet {
  URLSet_Xmlns : string;
  URLs : list URL
}.

Record SitemapEntry := mkSitemapEntry {
  Entry_Loc : string;
  Entry_LastMod : string
}.

Record SitemapIndex := mkSitemapIndex {
  Index_Xmlns : string;
  Index_Sitemaps : list SitemapEntry
}.

(** The fields of [SitemapManager] that the engine uses. [DB_mu] is the
    state of [sm.DB.mu] (true: held), [fileLock] that of [sm.fileLock]. *)
Record SitemapManager := mkSitemapManager {
  smConfig : Config;
  smDB : Database;
  smDBPath : string;
  smRobotsRules : gmap string bool;
  DB_mu : bool;
  fileLock : bool
}.

(** ** The world: files, clock, refused paths *)

(** What a file holds: a document one of the decoders accepts, or bytes none
    of them does. *)
Inductive Content :=
  | DBDoc (db : Database)
  | URLSetDoc (u : URLSet)
  | IndexDoc (ix : SitemapIndex)
  | Garbage (bytes : string).

Record File := mkFile {
  readable : bool;
  content : Content
}.

Record World := mkWorld {
  files : gmap string File;
  clock : Time;
  denied : gset string
}.

(** ** Errors and results *)

Inductive error :=
  | PolicyRejected (url : string)
  | DuplicateURL (url : string)
  | ErrNotExist (path : string)
  | ErrPermission (path : string)
  | ErrSyntax.

(** How a call ends: it returns a value, it returns an error, or the
    goroutine blocks for ever on a mutex. *)
Inductive result (A : Type) :=
  | Ok (a : A)
  | Err (e : error)
  | Deadlock.
Arguments Ok {A} a.
Arguments Err {A} e.
Arguments Deadlock {A}.

(** [os.IsNotExist]. *)
Definition os_IsNotExist (e : error) : bool :=
  match e with ErrNotExist _ => true | _ => false end.

(** ** What the platform provides *)

Class Platform := mkPlatform {
  (** [sha256.Sum256], the digest as a string of 32 bytes. *)
  sha256_Sum256 : string -> string;
  (** [t.Format(layout)]. *)
  time_Format : Time -> string -> string
}.

(** ** The manager's monad: state, with errors that keep the state *)

Record St := mkSt {
  mgr : SitemapManager;
  wld : World
}.

Definition M (A : Type) : Type := St -> result A * St.

Global Instance M_ret : MRet M := fun A a s => (Ok a, s).
Global Instance M_bind : MBind M := fun A B k m s =>
  match m s with
  | (Ok a, s') => k a s'
  | (Err e, s') => (Err e, s')
  | (Deadlock, s') => (Deadlock, s')
  end.
Definition fail {A} (e : error) : M A := fun s => (Err e, s).
Definition lift {A} (r : result A) : M A := fun s => (r, s).
(** [v, err := m]: the error is a value, nothing is aborted. *)
Definition try {A} (m : M A) : M (result A) :=
  fun s => match m s with
           | (Deadlock, s') => (Deadlock, s')
           | (r, s') => (Ok r, s')
           end.
(** [defer d] at the head of a body: [d] runs when the body returns, with a
    value or with an error; a body that blocks never returns. *)
Definition defer {A} (d : M unit) (body : M A) : M A :=
  fun s => match body s with
           | (Deadlock, s') => (Deadlock, s')
           | (r, s') => (r, snd (d s'))
           end.

Definition get : M St := fun s => (Ok s, s).
Definition getDB : M Database := fun s => (Ok (smDB (mgr s)), s).
Definition getConfig : M Config := fun s => (Ok (smConfig (mgr s)), s).

Definition with_DB (sm : SitemapManager) (db : Database) : SitemapManager :=
  mkSitemapManager (smConfig sm) db (smDBPath sm) (smRobotsRules sm)
    (DB_mu sm) (fileLock sm).
(** Writes through the pointer [sm.DB]. *)
Definition putDB (db : Database) : M unit :=
  fun s => (Ok tt, mkSt (with_DB (mgr s) db) (wld s)).
(** [sm.DB = &Database{...}]: a new struct, whose mutex is free. *)
Definition newDB (db : Database) : M unit :=
  fun s => (Ok tt,
            mkSt (mkSitemapManager (smConfig (mgr s)) db (smDBPath (mgr s))
                    (smRobotsRules (mgr s)) false (fileLock (mgr s)))
                 (wld s)).

Definition with_files (w : World) (fs : gmap string File) : World :=
  mkWorld fs (clock w) (denied w).

(** ** Mutexes *)

Definition DB_mu_Lock : M unit :=
  fun s => if DB_mu (mgr s) then (Deadlock, s)
           else (Ok tt,
                 mkSt (mkSitemapManager (smConfig (mgr s)) (smDB (mgr s))
                         (smDBPath (mgr s)) (smRobotsRules (mgr s)) true
                         (fileLock (mgr s)))
                      (wld s)).
Definition DB_mu_Unlock : M unit :=
  fun s => (Ok tt,
            mkSt (mkSitemapManager (smConfig (mgr s)) (smDB (mgr s))
                    (smDBPath (mgr s)) (smRobotsRules (mgr s)) false
                    (fileLock (mgr s)))
                 (wld s)).
Definition fileLock_Lock : M unit :=
  fun s => if fileLock (mgr s) then (Deadlock, s)
           else (Ok tt,
                 mkSt (mkSitemapManager (smConfig (mgr s)) (smDB (mgr s))
                         (smDBPath (mgr s)) (smRobotsRules (mgr s))
                         (DB_mu (mgr s)) true)
                      (wld s)).
Definition fileLock_Unlock : M unit :=
  fun s => (Ok tt,
            mkSt (mkSitemapManager (smConfig (mgr s)) (smDB (mgr s))
                    (smDBPath (mgr s)) (smRobotsRules (mgr s))
                    (DB_mu (mgr s)) false)
                 (wld s)).

(** ** The operating system *)

(** [time.Now()]: reads the clock, which moves on. *)
Definition time_Now : M Time :=
  fun s => (Ok (clock (wld s)),
            mkSt (mgr s) (mkWorld (files (wld s)) (clock (wld s) + 1)
                                  (denied (wld s)))).

(** [os.Stat] followed by [os.IsNotExist(err)]. *)
Definition os_Stat_IsNotExist (path : string) : M bool :=
  fun s => (Ok (bool_decide (files (wld s) !! path = None)), s).

Definition os_ReadFile (path : string) : M Content :=
  fun s => match files (wld s) !! path with
           | None => (Err (ErrNotExist path), s)
           | Some f => if readable f then (Ok (content f), s)
                       else (Err (ErrPermission path), s)
           end.

(** [os.WriteFile(path, data, 0644)]: creates or replaces. *)
Definition os_WriteFile (path : string) (data : Content) : M unit :=
  fun s => if bool_decide (path ∈ denied (wld s))
           then (Err (ErrPermission path), s)
           else (Ok tt, mkSt (mgr s)
                   (with_files (wld s)
                      (<[path := mkFile true data]> (files (wld s))))).

(** [os.Rename(oldpath, newpath)]: the new name takes the file over, the old
    name is gone. *)
Definition os_Rename (oldpath newpath : string) : M unit :=
  fun s => match files (wld s) !! oldpath with
           | None => (Err (ErrNotExist oldpath), s)
           | Some f =>
               if bool_decide (newpath ∈ denied (wld s))
               then (Err (ErrPermission newpath), s)
               else (Ok tt, mkSt (mgr s)
                       (with_files (wld s)
                          (<[newpath := f]> (delete oldpath (files (wld s))))))
           end.

Definition filepath_Join (dir name : string) : string :=
  dir +:+ "/" +:+ name.

(** ** Codecs *)

Definition json_Marshal (db : Database) : Content := DBDoc db.
Definition json_Unmarshal (data : Content) : result Database :=
  match data with DBDoc db => Ok db | _ => Err ErrSyntax end.

(** The XML documents carry [xml.Header] in front of the encoded element. *)
Definition xml_Marshal_URLSet (u : URLSet) : Content := URLSetDoc u.
Definition xml_Unmarshal_URLSet (data : Content) : result URLSet :=
  match data with URLSetDoc u => Ok u | _ => Err ErrSyntax end.

Definition xml_Marshal_Index (ix : SitemapIndex) : Content := IndexDoc ix.


(** ** Strings *)

(** [strings.HasPrefix(s, prefix)]. *)
Fixpoint strings_HasPrefix (s prefix : string) : bool :=
  match prefix, s with
  | EmptyString, _ => true
  | String _ _, EmptyString => false
  | String c prefix', String d s' =>
      if Ascii.eqb c d then strings_HasPrefix s' prefix' else false
  end.

(** [strings.HasSuffix(s, suffix)]:
    [len(s) >= len(suffix) && s[len(s)-len(suffix):] == suffix]. *)
Definition strings_HasSuffix (s suffix : string) : bool :=
  (String.length suffix <=? String.length s)%nat
  && String.eqb
       (String.substring (String.length s - String.length suffix)
          (String.length suffix) s)
       suffix.

(** [strings.TrimSuffix(s, suffix)]. *)
Definition strings_TrimSuffix (s suffix : string) : string :=
  if strings_HasSuffix s suffix
  then String.substring 0 (String.length s - String.length suffix) s
  else s.

Definition hex_digit (n : N) : ascii :=
  match n with
  | 0 => "0" | 1 => "1" | 2 => "2" | 3 => "3" | 4 => "4" | 5 => "5"
  | 6 => "6" | 7 => "7" | 8 => "8" | 9 => "9" | 10 => "a" | 11 => "b"
  | 12 => "c" | 13 => "d" | 14 => "e" | _ => "f"
  end%char%N.

(** [hex.EncodeToString]. *)
Fixpoint hex_EncodeToString (src : string) : string :=
  match src with
  | EmptyString => EmptyString
  | String c rest =>
      String (hex_digit (N.shiftr (Ascii.N_of_ascii c) 4))
        (String (hex_digit (N.land (Ascii.N_of_ascii c) 15))
           (hex_EncodeToString rest))
  end.

(** [fmt.Sprintf("%s_%d.xml", prefix, n)]. *)
Definition Sprintf_sitemap (prefix : string) (n : Z) : string :=
  prefix +:+ "_" +:+ pretty n +:+ ".xml".

(** The two fixed paths of the output directory: [sm.DBPath] as
    [NewSitemapManager] sets it, [indexPath] as [GenerateSitemapIndex]
    computes it. *)
Definition DBPath (cfg : Config) : string :=
  filepath_Join (OutputDir cfg) ".sitemaptool_db.json".
Definition indexPath (cfg : Config) : string :=
  filepath_Join (OutputDir cfg) "sitemap_index.xml".

(** ** The methods of [*SitemapManager] *)

Section Methods.
Context `{Platform}.

(** The loop of [IsURLAllowed] over the keys of [sm.RobotsRules]. *)
Fixpoint IsURLAllowed_range (url : string) (rules : list (string * bool))
  : bool :=
  match rules with
  | [] => true
  | (disallowPath, _) :: rest =>
      if strings_HasPrefix url disallowPath then false
      else IsURLAllowed_range url rest
  end.

Definition IsURLAllowed (sm : SitemapManager) (url : string) : bool :=
  if negb (RespectRobots (smConfig sm)) then true
  else IsURLAllowed_range url (map_to_list (smRobotsRules sm)).

Definition HashURL (url : string) : string :=
  hex_EncodeToString (sha256_Sum256 url).

(** The loop of [NeedNewSitemap]. *)
Fixpoint NeedNewSitemap_range (current : string) (l : list SitemapInfo)
  : bool :=
  match l with
  | [] => false
  | info :: rest =>
      if String.eqb (Filename info) current
      then MAX_URLS_PER_SITEMAP <=? URLCount info
      else NeedNewSitemap_range current rest
  end.

Definition NeedNewSitemap (db : Database) : bool :=
  if String.eqb (CurrentSitemap db) "" then true
  else NeedNewSitemap_range (CurrentSitemap db) (Sitemaps db).

Definition CreateNewSitemap : M string :=
  db ← getDB;
  cfg ← getConfig;
  let sitemapNum := Z.of_nat (length (Sitemaps db)) + 1 in
  let filename := Sprintf_sitemap (SitemapPrefix cfg) sitemapNum in
  now ← time_Now;
  putDB (mkDatabase (Sitemaps db ++ [mkSitemapInfo filename 0 now])
           (URLHashes db) filename (LastUpdated db));;
  mret filename.

Definition GetCurrentSitemap : M string :=
  db ← getDB;
  if String.eqb (CurrentSitemap db) "" || NeedNewSitemap db
  then CreateNewSitemap
  else mret (CurrentSitemap db).

Definition LoadSitemap (filename : string) : M URLSet :=
  cfg ← getConfig;
  let path := filepath_Join (OutputDir cfg) filename in
  r ← try (os_ReadFile path);
  match r with
  | Err err =>
      if os_IsNotExist err then mret (mkURLSet SITEMAP_NAMESPACE [])
      else fail err
  | Ok data => lift (xml_Unmarshal_URLSet data)
  | Deadlock => lift Deadlock
  end.

Definition SaveSitemap (filename : string) (urlset : URLSet) : M unit :=
  fileLock_Lock;;
  defer fileLock_Unlock (
    cfg ← getConfig;
    let path := filepath_Join (OutputDir cfg) filename in
    let xmlData := xml_Marshal_URLSet urlset in
    let tempFile := path +:+ ".tmp" in
    os_WriteFile tempFile xmlData;;
    os_Rename tempFile path).

(** The loop of [UpdateSitemapInfo]; [None] when no entry has the name. *)
Fixpoint UpdateSitemapInfo_range (filename : string) (urlCount : Z)
    (now : Time) (l : list SitemapInfo) : option (list SitemapInfo) :=
  match l with
  | [] => None
  | info :: rest =>
      if String.eqb (Filename info) filename
      then Some (mkSitemapInfo (Filename info) urlCount now :: rest)
      else cons info <$> UpdateSitemapInfo_range filename urlCount now rest
  end.

Definition UpdateSitemapInfo (filename : string) (urlCount : Z) : M unit :=
  db ← getDB;
  if existsb (fun info => String.eqb (Filename info) filename) (Sitemaps db)
  then
    now ← time_Now;
    match UpdateSitemapInfo_range filename urlCount now (Sitemaps db) with
    | Some l => putDB (mkDatabase l (URLHashes db) (CurrentSitemap db)
                         (LastUpdated db))
    | None => mret tt
    end
  else mret tt.

(** [SaveDB] takes [sm.DB.mu] for its whole body. *)
Definition SaveDB : M unit :=
  DB_mu_Lock;;
  defer DB_mu_Unlock (
    now ← time_Now;
    db ← getDB;
    putDB (mkDatabase (Sitemaps db) (URLHashes db) (CurrentSitemap db) now);;
    db ← getDB;
    s ← get;
    let data := json_Marshal db in
    let tempFile := smDBPath (mgr s) +:+ ".tmp" in
    os_WriteFile tempFile data;;
    os_Rename tempFile (smDBPath (mgr s))).

(** The last step of [LoadDB] puts an empty map in the place of a nil one;
    with the two identified it changes nothing and is left out. *)
Definition LoadDB : M unit :=
  fileLock_Lock;;
  defer fileLock_Unlock (
    s ← get;
    absent ← os_Stat_IsNotExist (smDBPath (mgr s));
    if absent : bool then
      (now ← time_Now;
       newDB (mkDatabase [] ∅ "" now);;
       SaveDB) : M unit
    else
      (data ← os_ReadFile (smDBPath (mgr s));
       newDB (mkDatabase [] ∅ "" 0);;
       db ← lift (json_Unmarshal data);
       putDB db) : M unit).

(** The loop of [GenerateSitemapIndex]: one entry per record of
    [sm.DB.Sitemaps], in order. *)
Definition index_entries (cfg : Config) (db : Database) : list SitemapEntry :=
  (fun info =>
     mkSitemapEntry
       (strings_TrimSuffix (BaseURL cfg) "/" +:+ "/" +:+ Filename info)
       (time_Format (LastMod info) "2006-01-02")) <$> Sitemaps db.

Definition GenerateSitemapIndex : M unit :=
  db ← getDB;
  cfg ← getConfig;
  let index := mkSitemapIndex SITEMAP_NAMESPACE (index_entries cfg db) in
  let xmlData := xml_Marshal_Index index in
  let indexPath := indexPath cfg in
  let tempFile := indexPath +:+ ".tmp" in
  os_WriteFile tempFile xmlData;;
  os_Rename tempFile indexPath.

(** [AddURL] takes [sm.DB.mu] for its whole body, the call of [SaveDB]
    included. *)
Definition AddURL (url changefreq : string) (priority : float) : M unit :=
  DB_mu_Lock;;
  defer DB_mu_Unlock (
    s ← get;
    if negb (IsURLAllowed (mgr s) url) then fail (PolicyRejected url) else
    let urlHash := HashURL url in
    if default false (URLHashes (smDB (mgr s)) !! urlHash)
    then fail (DuplicateURL url) else
    currentSitemap ← GetCurrentSitemap;
    r ← try (LoadSitemap currentSitemap);
    let urlset :=
      match r with
      | Ok urlset => urlset
      | _ => mkURLSet SITEMAP_NAMESPACE []
      end in
    now ← time_Now;
    let newURL := mkURL url (time_Format now "2006-01-02") changefreq
                    priority in
    let urlset := mkURLSet (URLSet_Xmlns urlset) (URLs urlset ++ [newURL]) in
    db ← getDB;
    putDB (mkDatabase (Sitemaps db) (<[urlHash := true]> (URLHashes db))
             (CurrentSitemap db) (LastUpdated db));;
    SaveSitemap currentSitemap urlset;;
    UpdateSitemapInfo currentSitemap (Z.of_nat (length (URLs urlset)));;
    SaveDB;;
    GenerateSitemapIndex).

(** The steps of [AddURL] that follow its two checks, under a name. *)
Definition AddURL_accepted (url changefreq : string) (priority : float)
  : M unit :=
  let urlHash := HashURL url in
  currentSitemap ← GetCurrentSitemap;
  r ← try (LoadSitemap currentSitemap);
  let urlset :=
    match r with
    | Ok urlset => urlset
    | _ => mkURLSet SITEMAP_NAMESPACE []
    end in
  now ← time_Now;
  let newURL := mkURL url (time_Format now "2006-01-02") changefreq
                  priority in
  let urlset := mkURLSet (URLSet_Xmlns urlset) (URLs urlset ++ [newURL]) in
  db ← getDB;
  putDB (mkDatabase (Sitemaps db) (<[urlHash := true]> (URLHashes db))
           (CurrentSitemap db) (LastUpdated db));;
  SaveSitemap currentSitemap urlset;;
  UpdateSitemapInfo currentSitemap (Z.of_nat (length (URLs urlset)));;
  SaveDB;;
  GenerateSitemapIndex.

(** [NewSitemapManager], from the configuration [LoadConfig] returns and the
    rules [ParseRobotsTxt] reads from the file at [RobotsPath] (both belong to
    collaborators of the engine and are given). *)
Definition NewSitemapManager (cfg : Config) (robots : gmap string bool)
    (w : World) : result SitemapManager * World :=
  let sm := mkSitemapManager cfg (mkDatabase [] ∅ "" 0) (DBPath cfg) ∅
              false false in
  match LoadDB (mkSt sm w) with
  | (Ok _, s) =>
      (Ok (if RespectRobots cfg
           then mkSitemapManager (smConfig (mgr s)) (smDB (mgr s))
                  (smDBPath (mgr s)) robots (DB_mu (mgr s))
                  (fileLock (mgr s))
           else mgr s),
       wld s)
  | (Err e, s) => (Err e, wld s)
  | (Deadlock, s) => (Deadlock, wld s)
  end.

(** [DefaultConfig]. *)
Definition DefaultConfig : Config :=
  mkConfig "./sitemaps" "https://example.com" "sitemap" false
    ["https://www.google.com/ping?sitemap=";
     "https://www.bing.com/ping?sitemap="]
    "weekly" 0.5%float true true "./robots.txt" true.

(** ** The commands *)

Definition addCmd (cfg : Config) (robots : gmap string bool)
    (url changefreq : string) (priority : float) (w : World)
  : result unit * World :=
  match NewSitemapManager cfg robots w with
  | (Ok sm, w1) =>
      let changefreq :=
        if String.eqb changefreq "" then DefaultChangefreq (smConfig sm)
        else changefreq in
      let priority :=
        if PrimFloat.eqb priority 0%float then DefaultPriority (smConfig sm)
        else priority in
      let '(r, s) := AddURL url changefreq priority (mkSt sm w1) in
      (r, wld s)
  | (Err e, w1) => (Err e, w1)
  | (Deadlock, w1) => (Deadlock, w1)
  end.

Definition createCmd (cfg : Config) (robots : gmap string bool) (w : World)
  : result unit * World :=
  match NewSitemapManager cfg robots w with
  | (Ok sm, w1) =>
      let '(r, s) :=
        (filename ← CreateNewSitemap;
         SaveDB;;
         GenerateSitemapIndex) (mkSt sm w1) in
      (r, wld s)
  | (Err e, w1) => (Err e, w1)
  | (Deadlock, w1) => (Deadlock, w1)
  end.

End Methods.

(** ** Vocabulary of the properties *)

(** The condition under which [GetCurrentSitemap] creates a partition. *)
Definition creates_new (db : Database) : bool :=
  String.eqb (CurrentSitemap db) "" || NeedNewSitemap db.
(** The record of the current partition, as [NeedNewSitemap] finds it. *)
Definition current_info (db : Database) : option SitemapInfo :=
  find (fun info => String.eqb (Filename info) (CurrentSitemap db))
    (Sitemaps db).

(** The characters of a string, last first. *)
Definition rchars (s : string) : list ascii :=
  reverse (String.list_ascii_of_string s).

(** The files after [os.WriteFile(path + ".tmp", doc)] and
    [os.Rename(path + ".tmp", path)]. *)
Definition replaced (path : string) (doc : Content) (fs : gmap string File)
  : gmap string File :=
  <[path := mkFile true doc]>
    (delete (path +:+ ".tmp") (<[path +:+ ".tmp" := mkFile true doc]> fs)).

(** The store on disk. *)
Definition stored (cfg : Config) (w : World) (db : Database) : Prop :=
  exists f, files w !! DBPath cfg = Some f /\ content f = DBDoc db.

(** What [LoadDB] makes of the world [w]: the store [db] it hands to the
    command and the world [w1] it leaves. *)
Definition load_outcome (cfg : Config) (w : World) (db : Database)
    (w1 : World) : Prop :=
  files w !! DBPath cfg = None /\
    db = mkDatabase [] ∅ "" (clock w + 1) /\
    w1 = mkWorld (replaced (DBPath cfg) (DBDoc db) (files w)) (clock w + 2)
           (denied w)
  \/
  w1 = w /\
    exists f, files w !! DBPath cfg = Some f /\ readable f = true /\
              content f = DBDoc db.

(** The store after [CreateNewSitemap] at time [t] and [SaveDB]. *)
Definition created (cfg : Config) (db : Database) (t : Time) : Database :=
  let filename :=
    Sprintf_sitemap (SitemapPrefix cfg)
      (Z.of_nat (length (Sitemaps db)) + 1) in
  mkDatabase (Sitemaps db ++ [mkSitemapInfo filename 0 t]) (URLHashes db)
    filename (t + 1).

Definition sum_URLCount (db : Database) : Z :=
  foldr (fun info acc => URLCount info + acc) 0 (Sitemaps db).

(** The name of the partition created last; empty when there is none. *)
Definition last_Filename (db : Database) : string :=
  default "" (Filename <$> last (Sitemaps db)).

(** What holds of every store the commands leave on disk: no add comes to
    save a store, so none has a hash or a counted entry; the current
    partition is the one created last; no partition has an empty name. *)
Definition store_inv (db : Database) : Prop :=
  URLHashes db = ∅ /\
  Forall (fun info => URLCount info = 0) (Sitemaps db) /\
  CurrentSitemap db = last_Filename db /\
  Forall (fun info => Filename info <> "") (Sitemaps db).

(** The claim C4 as the spec words it: at most one partition is below
    capacity, and a partition below capacity is the current one. *)
Definition at_most_one_below_capacity (db : Database) : Prop :=
  forall i j a b,
    Sitemaps db !! i = Some a -> Sitemaps db !! j = Some b ->
    URLCount a < MAX_URLS_PER_SITEMAP -> URLCount b < MAX_URLS_PER_SITEMAP ->
    i = j.
Definition below_capacity_is_current (db : Database) : Prop :=
  forall a, a ∈ Sitemaps db -> URLCount a < MAX_URLS_PER_SITEMAP ->
            Filename a = CurrentSitemap db.

(** The location the spec gives for a partition: the base URL without one
    trailing slash, a slash, the partition's name. *)
Fixpoint spec_strip_slash (s : string) : string :=
  match s with
  | EmptyString => EmptyString
  | String c rest =>
      match rest with
      | EmptyString => if Ascii.eqb c "/" then EmptyString else s
      | _ => String c (spec_strip_slash rest)
      end
  end.
Definition spec_location (base_url name : string) : string :=
  spec_strip_slash base_url +:+ "/" +:+ name.

(** An action that leaves [sm.DB.mu] as it found it. *)
Definition keeps_mu {A} (m : M A) : Prop :=
  forall s, DB_mu (mgr (snd (m s))) = DB_mu (mgr s).

(** An action that does not return a value while [sm.DB.mu] is held. *)
Definition stuck_under_mu {A} (m : M A) : Prop :=
  forall s a, DB_mu (mgr s) = true -> fst (m s) <> Ok a.

(** The two rejections of [AddURL], and the other errors. *)
Definition is_rejection (e : error) : Prop :=
  match e with
  | PolicyRejected _ | DuplicateURL _ => True
  | _ => False
  end.

Definition io_error (e : error) : Prop :=
  match e with
  | PolicyRejected _ | DuplicateURL _ => False
  | _ => True
  end.
(** An action whose errors all come from the file system or a decoder. *)
Definition only_io_errors {A} (m : M A) : Prop :=
  forall s e, fst (m s) = Err e -> io_error e.

(** The state in which the steps of [AddURL] past the checks run: [sm.DB.mu]
    held, [sm.fileLock] free; and no path refused. *)
Definition add_running (s : St) : Prop :=
  DB_mu (mgr s) = true /\ fileLock (mgr s) = false /\ denied (wld s) = ∅.
(** An action that returns a value and stays in such a state. *)
Definition proceeds {A} (m : M A) : Prop :=
  forall s, add_running s -> exists a s', m s = (Ok a, s') /\ add_running s'.
(** An action that blocks in such a state. *)
Definition blocks {A} (m : M A) : Prop :=
  forall s, add_running s -> fst (m s) = Deadlock.

Section Vocabulary.
Context `{Platform}.

(** The worlds reached from an empty output directory by commands that
    report success; between two commands the clock and the set of refused
    paths may change. *)
Inductive reachable (cfg : Config) : World -> Prop :=
  | reach_fresh w :
      files w = ∅ -> reachable cfg w
  | reach_add w robots url changefreq priority w' :
      reachable cfg w ->
      addCmd cfg robots url changefreq priority w = (Ok tt, w') ->
      reachable cfg w'
  | reach_create w robots w' :
      reachable cfg w ->
      createCmd cfg robots w = (Ok tt, w') ->
      reachable cfg w'
  | reach_env w t d :
      reachable cfg w -> reachable cfg (mkWorld (files w) t d).

End Vocabulary.

(** An output directory with nothing in it, at time 0, nothing refused. *)
Definition empty_world : World := mkWorld ∅ 0 ∅.

(** The world after one create command in an empty output directory. *)
Definition world_after_create `{Platform} : World :=
  snd (createCmd DefaultConfig ∅ empty_world).
(** The world after two of them. *)
Definition world_after_two_creates `{Platform} : World :=
  snd (createCmd DefaultConfig ∅ world_after_create).

(** A platform to run the model on: the digest of a string is the string,
    a time prints as its number. *)
Definition toy_platform : Platform :=
  mkPlatform (fun s => s) (fun t _ => pretty t).

(** A manager that holds a store with one partition and two hashes, over an
    empty output directory. *)
Definition sample_store : Database :=
  mkDatabase [mkSitemapInfo "sitemap_1.xml" 2 7]
    {["6161" := true; "6262" := true]} "sitemap_1.xml" 8.
Definition sample_state : St :=
  mkSt (mkSitemapManager DefaultConfig sample_store (DBPath DefaultConfig) ∅
          false false)
       (mkWorld ∅ 9 ∅).

(** * Properties

    [AddURL] locks [sm.DB.mu] and keeps it until it returns; past its two
    checks it calls [SaveDB], which locks [sm.DB.mu] itself. So a call of
    [AddURL] ends in one of three ways: it is rejected by a check and changes
    nothing, it fails on the partition file, or it blocks in [SaveDB] with
    the partition document written and the store not saved
    ([AddURL_never_returns_nil]). The create command calls [SaveDB] without
    the mutex and runs through. The properties below are read off this. *)

(** ** Running the monad *)

Lemma bind_run {A B} (m : M A) (k : A -> M B) (s : St) :
  (m ≫= k) s =
  match m s with
  | (Ok a, s') => k a s'
  | (Err e, s') => (Err e, s')
  | (Deadlock, s') => (Deadlock, s')
  end.
Proof. reflexivity. Qed.

Lemma keeps_mu_bind {A B} (m : M A) (k : A -> M B) :
  keeps_mu m -> (forall a, keeps_mu (k a)) -> keeps_mu (m ≫= k).
Proof.
  intros Hm Hk s. rewrite bind_run. specialize (Hm s).
  destruct (m s) as [[a|e|] s1]; simpl in *; try done.
  by rewrite Hk.
Qed.

Lemma keeps_mu_ret {A} (a : A) : keeps_mu (mret a).
Proof. done. Qed.
Lemma keeps_mu_fail {A} (e : error) : keeps_mu (@fail A e).
Proof. done. Qed.
Lemma keeps_mu_lift {A} (r : result A) : keeps_mu (lift r).
Proof. done. Qed.
Lemma keeps_mu_try {A} (m : M A) : keeps_mu m -> keeps_mu (try m).
Proof.
  intros Hm s. unfold try. specialize (Hm s).
  by destruct (m s) as [[a|e|] s1].
Qed.
Lemma keeps_mu_defer {A} (d : M unit) (m : M A) :
  keeps_mu d -> keeps_mu m -> keeps_mu (defer d m).
Proof.
  intros Hd Hm s. unfold defer. specialize (Hm s).
  destruct (m s) as [[a|e|] s1]; simpl in *; try done; by rewrite Hd.
Qed.

Lemma stuck_bind_l {A B} (m : M A) (k : A -> M B) :
  stuck_under_mu m -> stuck_under_mu (m ≫= k).
Proof.
  intros Hm s b Hs. rewrite bind_run. specialize (Hm s).
  destruct (m s) as [[a|e|] s1]; simpl in *; try done.
  by destruct (Hm a).
Qed.
Lemma stuck_bind_r {A B} (m : M A) (k : A -> M B) :
  keeps_mu m -> (forall a, stuck_under_mu (k a)) -> stuck_under_mu (m ≫= k).
Proof.
  intros Hm Hk s b Hs. rewrite bind_run. specialize (Hm s).
  destruct (m s) as [[a|e|] s1]; simpl in *; try done.
  apply Hk. congruence.
Qed.
Lemma stuck_fail {A} (e : error) : stuck_under_mu (@fail A e).
Proof. by intros s a _. Qed.

Lemma only_io_bind {A B} (m : M A) (k : A -> M B) :
  only_io_errors m -> (forall a, only_io_errors (k a)) ->
  only_io_errors (m ≫= k).
Proof.
  intros Hm Hk s e. rewrite bind_run. specialize (Hm s).
  destruct (m s) as [[a|e'|] s1]; simpl in *; try done.
  - apply Hk.
  - intros [= <-]. by apply Hm.
Qed.
Lemma only_io_ret {A} (a : A) : only_io_errors (mret a).
Proof. by intros s e. Qed.
Lemma only_io_try {A} (m : M A) : only_io_errors (try m).
Proof. intros s e. unfold try. by destruct (m s) as [[a|e'|] s1]. Qed.
Lemma only_io_defer {A} (d : M unit) (m : M A) :
  only_io_errors m -> only_io_errors (defer d m).
Proof.
  intros Hm s e. unfold defer. specialize (Hm s).
  destruct (m s) as [[a|e'|] s1]; simpl in *; try done.
  intros [= <-]. by apply Hm.
Qed.

Lemma proceeds_bind {A B} (m : M A) (k : A -> M B) :
  proceeds m -> (forall a, proceeds (k a)) -> proceeds (m ≫= k).
Proof.
  intros Hm Hk s Hs. destruct (Hm s Hs) as (a & s1 & Hrun & Hs1).
  rewrite bind_run, Hrun. by apply Hk.
Qed.
Lemma blocks_bind {A B} (m : M A) (k : A -> M B) :
  proceeds m -> (forall a, blocks (k a)) -> blocks (m ≫= k).
Proof.
  intros Hm Hk s Hs. destruct (Hm s Hs) as (a & s1 & Hrun & Hs1).
  rewrite bind_run, Hrun. by apply Hk.
Qed.
Lemma blocks_bind_l {A B} (m : M A) (k : A -> M B) :
  blocks m -> blocks (m ≫= k).
Proof.
  intros Hm s Hs. specialize (Hm s Hs). rewrite bind_run.
  by destruct (m s) as [[a|e|] s1].
Qed.
Lemma proceeds_ret {A} (a : A) : proceeds (mret a).
Proof. intros s Hs. by exists a, s. Qed.

Section Properties.
Context `{Platform}.

(** ** Which actions touch the mutex, and which errors they return *)

Lemma keeps_mu_time_Now : keeps_mu time_Now.
Proof. done. Qed.
Lemma keeps_mu_getDB : keeps_mu getDB.
Proof. done. Qed.
Lemma keeps_mu_getConfig : keeps_mu getConfig.
Proof. done. Qed.
Lemma keeps_mu_get : keeps_mu get.
Proof. done. Qed.
Lemma keeps_mu_putDB db : keeps_mu (putDB db).
Proof. done. Qed.
Lemma keeps_mu_os_ReadFile path : keeps_mu (os_ReadFile path).
Proof.
  intros s. unfold os_ReadFile.
  destruct (files (wld s) !! path) as [f|]; [|done]. by destruct (readable f).
Qed.
Lemma keeps_mu_os_WriteFile path data : keeps_mu (os_WriteFile path data).
Proof. intros s. unfold os_WriteFile. by case_bool_decide. Qed.
Lemma keeps_mu_os_Rename old new : keeps_mu (os_Rename old new).
Proof.
  intros s. unfold os_Rename.
  destruct (files (wld s) !! old) as [f|]; [|done]. by case_bool_decide.
Qed.
Lemma keeps_mu_fileLock_Lock : keeps_mu fileLock_Lock.
Proof. intros s. unfold fileLock_Lock. by destruct (fileLock (mgr s)). Qed.
Lemma keeps_mu_fileLock_Unlock : keeps_mu fileLock_Unlock.
Proof. done. Qed.

Create HintDb mu.
Local Hint Resolve keeps_mu_bind keeps_mu_ret keeps_mu_fail keeps_mu_lift
  keeps_mu_try keeps_mu_defer keeps_mu_time_Now keeps_mu_getDB
  keeps_mu_getConfig keeps_mu_get keeps_mu_putDB keeps_mu_os_ReadFile
  keeps_mu_os_WriteFile keeps_mu_os_Rename keeps_mu_fileLock_Lock
  keeps_mu_fileLock_Unlock : mu.

Lemma keeps_mu_CreateNewSitemap : keeps_mu CreateNewSitemap.
Proof. unfold CreateNewSitemap. auto 10 with mu. Qed.

Lemma keeps_mu_GetCurrentSitemap : keeps_mu GetCurrentSitemap.
Proof.
  unfold GetCurrentSitemap. apply keeps_mu_bind; [auto with mu|].
  intros db. destruct (_ || _); auto using keeps_mu_CreateNewSitemap with mu.
Qed.

Lemma keeps_mu_LoadSitemap filename : keeps_mu (LoadSitemap filename).
Proof.
  unfold LoadSitemap. apply keeps_mu_bind; [auto with mu|]. intros cfg.
  apply keeps_mu_bind; [auto with mu|]. intros [data|err|]; auto with mu.
  destruct (os_IsNotExist err); auto with mu.
Qed.

Lemma keeps_mu_SaveSitemap filename urlset :
  keeps_mu (SaveSitemap filename urlset).
Proof. unfold SaveSitemap. auto 10 with mu. Qed.

Lemma keeps_mu_UpdateSitemapInfo filename urlCount :
  keeps_mu (UpdateSitemapInfo filename urlCount).
Proof.
  unfold UpdateSitemapInfo. apply keeps_mu_bind; [auto with mu|]. intros db.
  destruct (existsb _ _); [|auto with mu].
  apply keeps_mu_bind; [auto with mu|]. intros now.
  destruct (UpdateSitemapInfo_range _ _ _ _); auto with mu.
Qed.

(** [SaveDB] locks [sm.DB.mu] first: called with the mutex held, it blocks. *)
Lemma SaveDB_held s : DB_mu (mgr s) = true -> SaveDB s = (Deadlock, s).
Proof.
  intros Hmu. unfold SaveDB. rewrite bind_run. unfold DB_mu_Lock.
  by rewrite Hmu.
Qed.

Lemma stuck_SaveDB : stuck_under_mu SaveDB.
Proof. intros s a Hmu. by rewrite SaveDB_held. Qed.

Lemma defer_fst {A} (d : M unit) (m : M A) s :
  fst (defer d m s) = fst (m s).
Proof. unfold defer. by destruct (m s) as [[a|e|] s1]. Qed.

Lemma stuck_defer {A} (d : M unit) (m : M A) :
  stuck_under_mu m -> stuck_under_mu (defer d m).
Proof. intros Hm s a Hs. rewrite defer_fst. by apply Hm. Qed.

Lemma AddURL_unfold url changefreq priority :
  AddURL url changefreq priority =
  (DB_mu_Lock;;
   defer DB_mu_Unlock (
     s ← get;
     if negb (IsURLAllowed (mgr s) url) then fail (PolicyRejected url) else
     if default false (URLHashes (smDB (mgr s)) !! HashURL url)
     then fail (DuplicateURL url)
     else AddURL_accepted url changefreq priority)).
Proof. reflexivity. Qed.

(** Past its two checks, [AddURL] runs into [SaveDB] with [sm.DB.mu] held. *)
Lemma stuck_AddURL_accepted url changefreq priority :
  stuck_under_mu (AddURL_accepted url changefreq priority).
Proof.
  unfold AddURL_accepted.
  apply stuck_bind_r; [apply keeps_mu_GetCurrentSitemap|]; intros cur.
  apply stuck_bind_r; [apply keeps_mu_try, keeps_mu_LoadSitemap|]; intros r.
  apply stuck_bind_r; [apply keeps_mu_time_Now|]; intros now.
  apply stuck_bind_r; [apply keeps_mu_getDB|]; intros db.
  apply stuck_bind_r; [apply keeps_mu_putDB|]; intros _.
  apply stuck_bind_r; [apply keeps_mu_SaveSitemap|]; intros _.
  apply stuck_bind_r; [apply keeps_mu_UpdateSitemapInfo|]; intros _.
  apply stuck_bind_l, stuck_SaveDB.
Qed.

(** No call of [AddURL] returns [nil]. *)
Lemma AddURL_never_returns_nil url changefreq priority s a :
  fst (AddURL url changefreq priority s) <> Ok a.
Proof.
  rewrite AddURL_unfold, bind_run. unfold DB_mu_Lock.
  destruct (DB_mu (mgr s)); [done|].
  apply stuck_defer; [|done].
  apply stuck_bind_r; [apply keeps_mu_get|]; intros s0.
  destruct (negb _); [apply stuck_fail|].
  destruct (default _ _); [apply stuck_fail|].
  apply stuck_AddURL_accepted.
Qed.

(** ** The add that passes the checks *)

Lemma proceeds_time_Now : proceeds time_Now.
Proof. intros s Hs. by eexists _, _. Qed.
Lemma proceeds_getDB : proceeds getDB.
Proof. intros s Hs. by eexists _, _. Qed.
Lemma proceeds_getConfig : proceeds getConfig.
Proof. intros s Hs. by eexists _, _. Qed.
Lemma proceeds_putDB db : proceeds (putDB db).
Proof. intros s Hs. by eexists _, _. Qed.

Lemma proceeds_CreateNewSitemap : proceeds CreateNewSitemap.
Proof.
  unfold CreateNewSitemap.
  repeat (apply proceeds_bind; [first [apply proceeds_getDB
    | apply proceeds_getConfig | apply proceeds_time_Now
    | apply proceeds_putDB]|intros ?]).
  apply proceeds_ret.
Qed.

Lemma proceeds_GetCurrentSitemap : proceeds GetCurrentSitemap.
Proof.
  unfold GetCurrentSitemap. apply proceeds_bind; [apply proceeds_getDB|].
  intros db. destruct (_ || _);
    [apply proceeds_CreateNewSitemap|apply proceeds_ret].
Qed.

(** [LoadSitemap] changes nothing and does not block. *)
Lemma LoadSitemap_pure filename s :
  exists r, LoadSitemap filename s = (r, s) /\ r <> Deadlock.
Proof.
  unfold LoadSitemap. rewrite bind_run. simpl.
  unfold mbind, M_bind, try, os_ReadFile.
  destruct (files (wld s) !! _) as [f|]; simpl.
  - destruct (readable f); simpl.
    + destruct (content f); simpl; eauto.
    + eauto.
  - eauto.
Qed.

Lemma proceeds_try_LoadSitemap filename : proceeds (try (LoadSitemap filename)).
Proof.
  intros s Hs. destruct (LoadSitemap_pure filename s) as (r & Hrun & Hr).
  unfold try. rewrite Hrun. exists r, s. by destruct r.
Qed.

Lemma proceeds_SaveSitemap filename urlset :
  proceeds (SaveSitemap filename urlset).
Proof.
  intros s (Hmu & Hfl & Hd). unfold SaveSitemap. rewrite bind_run.
  unfold fileLock_Lock. rewrite Hfl. unfold defer.
  do 2 (rewrite bind_run; simpl). unfold os_WriteFile, os_Rename. simpl.
  rewrite Hd. rewrite bool_decide_eq_false_2 by set_solver. simpl.
  rewrite lookup_insert_eq, Hd. rewrite bool_decide_eq_false_2 by set_solver.
  simpl. by eexists _, _.
Qed.

Lemma proceeds_UpdateSitemapInfo filename urlCount :
  proceeds (UpdateSitemapInfo filename urlCount).
Proof.
  unfold UpdateSitemapInfo. apply proceeds_bind; [apply proceeds_getDB|].
  intros db. destruct (existsb _ _); [|apply proceeds_ret].
  apply proceeds_bind; [apply proceeds_time_Now|]. intros now.
  destruct (UpdateSitemapInfo_range _ _ _ _);
    [apply proceeds_putDB|apply proceeds_ret].
Qed.

Lemma blocks_SaveDB : blocks SaveDB.
Proof. intros s (Hmu & _). by rewrite SaveDB_held. Qed.

Lemma blocks_AddURL_accepted url changefreq priority :
  blocks (AddURL_accepted url changefreq priority).
Proof.
  unfold AddURL_accepted.
  apply blocks_bind; [apply proceeds_GetCurrentSitemap|]; intros cur.
  apply blocks_bind; [apply proceeds_try_LoadSitemap|]; intros r.
  apply blocks_bind; [apply proceeds_time_Now|]; intros now.
  apply blocks_bind; [apply proceeds_getDB|]; intros db.
  apply blocks_bind; [apply proceeds_putDB|]; intros _.
  apply blocks_bind; [apply proceeds_SaveSitemap|]; intros _.
  apply blocks_bind; [apply proceeds_UpdateSitemapInfo|]; intros _.
  apply blocks_bind_l, blocks_SaveDB.
Qed.

(** Every add that passes the two checks, with no lock taken beforehand and
    no path refused, blocks. *)
Lemma AddURL_blocks url changefreq priority s :
  DB_mu (mgr s) = false ->
  fileLock (mgr s) = false ->
  denied (wld s) = ∅ ->
  IsURLAllowed (mgr s) url = true ->
  default false (URLHashes (smDB (mgr s)) !! HashURL url) = false ->
  fst (AddURL url changefreq priority s) = Deadlock.
Proof.
  intros Hmu Hfl Hd Hyes Hnew.
  rewrite AddURL_unfold, bind_run. unfold DB_mu_Lock. rewrite Hmu.
  rewrite defer_fst, bind_run. simpl.
  replace (IsURLAllowed _ url) with true
    by (by destruct s as [[] ?]; simpl in *; rewrite <-Hyes).
  simpl. rewrite Hnew. by apply blocks_AddURL_accepted.
Qed.


(** ** Errors of the steps past the checks *)

Lemma only_io_fail_io {A} e : io_error e -> only_io_errors (@fail A e).
Proof. by intros He s e' [= <-]. Qed.
Lemma only_io_time_Now : only_io_errors time_Now.
Proof. by intros s e. Qed.
Lemma only_io_getDB : only_io_errors getDB.
Proof. by intros s e. Qed.
Lemma only_io_getConfig : only_io_errors getConfig.
Proof. by intros s e. Qed.
Lemma only_io_get : only_io_errors get.
Proof. by intros s e. Qed.
Lemma only_io_putDB db : only_io_errors (putDB db).
Proof. by intros s e. Qed.
Lemma only_io_newDB db : only_io_errors (newDB db).
Proof. by intros s e. Qed.
Lemma only_io_DB_mu_Lock : only_io_errors DB_mu_Lock.
Proof. intros s e. unfold DB_mu_Lock. by destruct (DB_mu (mgr s)). Qed.
Lemma only_io_fileLock_Lock : only_io_errors fileLock_Lock.
Proof. intros s e. unfold fileLock_Lock. by destruct (fileLock (mgr s)). Qed.
Lemma only_io_os_WriteFile path data : only_io_errors (os_WriteFile path data).
Proof.
  intros s e. unfold os_WriteFile. case_bool_decide; [|done]. by intros [= <-].
Qed.
Lemma only_io_os_Rename old new : only_io_errors (os_Rename old new).
Proof.
  intros s e. unfold os_Rename.
  destruct (files (wld s) !! old) as [f|]; [|by intros [= <-]].
  case_bool_decide; [|done]. by intros [= <-].
Qed.
Lemma only_io_os_ReadFile path : only_io_errors (os_ReadFile path).
Proof.
  intros s e. unfold os_ReadFile.
  destruct (files (wld s) !! path) as [f|]; [|by intros [= <-]].
  destruct (readable f); [done|]. by intros [= <-].
Qed.
Lemma only_io_xml_Unmarshal data : only_io_errors (lift (xml_Unmarshal_URLSet data)).
Proof. intros s e. destruct data; simpl; try done; by intros [= <-]. Qed.
Lemma only_io_json_Unmarshal data : only_io_errors (lift (json_Unmarshal data)).
Proof. intros s e. destruct data; simpl; try done; by intros [= <-]. Qed.

Create HintDb io.
Local Hint Resolve only_io_bind only_io_ret only_io_try only_io_defer
  only_io_time_Now only_io_getDB only_io_getConfig only_io_get only_io_putDB
  only_io_newDB only_io_DB_mu_Lock only_io_fileLock_Lock only_io_os_WriteFile
  only_io_os_Rename only_io_os_ReadFile only_io_xml_Unmarshal
  only_io_json_Unmarshal : io.

Lemma only_io_CreateNewSitemap : only_io_errors CreateNewSitemap.
Proof. unfold CreateNewSitemap. auto 10 with io. Qed.

Lemma only_io_GetCurrentSitemap : only_io_errors GetCurrentSitemap.
Proof.
  unfold GetCurrentSitemap. apply only_io_bind; [auto with io|].
  intros db. destruct (_ || _); auto using only_io_CreateNewSitemap with io.
Qed.

Lemma only_io_SaveSitemap filename urlset :
  only_io_errors (SaveSitemap filename urlset).
Proof. unfold SaveSitemap. auto 10 with io. Qed.

Lemma only_io_UpdateSitemapInfo filename urlCount :
  only_io_errors (UpdateSitemapInfo filename urlCount).
Proof.
  unfold UpdateSitemapInfo. apply only_io_bind; [auto with io|]. intros db.
  destruct (existsb _ _); [|auto with io].
  apply only_io_bind; [auto with io|]. intros now.
  destruct (UpdateSitemapInfo_range _ _ _ _); auto with io.
Qed.

Lemma only_io_SaveDB : only_io_errors SaveDB.
Proof. unfold SaveDB. auto 15 with io. Qed.

Lemma only_io_GenerateSitemapIndex : only_io_errors GenerateSitemapIndex.
Proof. unfold GenerateSitemapIndex. auto 10 with io. Qed.

Lemma only_io_AddURL_accepted url changefreq priority :
  only_io_errors (AddURL_accepted url changefreq priority).
Proof.
  unfold AddURL_accepted.
  apply only_io_bind; [apply only_io_GetCurrentSitemap|]; intros cur.
  apply only_io_bind; [apply only_io_try|]; intros r.
  apply only_io_bind; [apply only_io_time_Now|]; intros now.
  apply only_io_bind; [apply only_io_getDB|]; intros db.
  apply only_io_bind; [apply only_io_putDB|]; intros _.
  apply only_io_bind; [apply only_io_SaveSitemap|]; intros _.
  apply only_io_bind; [apply only_io_UpdateSitemapInfo|]; intros _.
  apply only_io_bind; [apply only_io_SaveDB|]; intros _.
  apply only_io_GenerateSitemapIndex.
Qed.

(** ** The two rejections of [AddURL] *)

Lemma unlock_after_lock s :
  DB_mu (mgr s) = false ->
  mkSt (mkSitemapManager (smConfig (mgr s)) (smDB (mgr s)) (smDBPath (mgr s))
          (smRobotsRules (mgr s)) false (fileLock (mgr s))) (wld s) = s.
Proof. destruct s as [[] ?]; simpl. by intros ->. Qed.

(** A URL that the policy refuses is rejected with [PolicyRejected], and the
    call leaves the manager and the world as they were. *)
Lemma AddURL_policy_rejects url changefreq priority s :
  DB_mu (mgr s) = false ->
  IsURLAllowed (mgr s) url = false ->
  AddURL url changefreq priority s = (Err (PolicyRejected url), s).
Proof.
  intros Hmu Hno. rewrite AddURL_unfold, bind_run. unfold DB_mu_Lock.
  rewrite Hmu. unfold defer. rewrite bind_run. simpl.
  destruct s as [[] ?]; simpl in *. subst. unfold IsURLAllowed in *.
  simpl in *. by rewrite Hno.
Qed.

(** A URL whose hash is recorded is rejected with [DuplicateURL]. *)
Lemma AddURL_duplicate_rejects url changefreq priority s :
  DB_mu (mgr s) = false ->
  IsURLAllowed (mgr s) url = true ->
  URLHashes (smDB (mgr s)) !! HashURL url = Some true ->
  AddURL url changefreq priority s = (Err (DuplicateURL url), s).
Proof.
  intros Hmu Hyes Hdup. rewrite AddURL_unfold, bind_run. unfold DB_mu_Lock.
  rewrite Hmu. unfold defer. rewrite bind_run. simpl.
  destruct s as [[] ?]; simpl in *. subst. unfold IsURLAllowed in *.
  simpl in *. by rewrite Hyes, Hdup.
Qed.

Lemma AddURL_rejection_inv url changefreq priority s e s' :
  AddURL url changefreq priority s = (Err e, s') ->
  is_rejection e ->
  s' = s /\
  (e = PolicyRejected url /\ IsURLAllowed (mgr s) url = false \/
   e = DuplicateURL url /\ IsURLAllowed (mgr s) url = true /\
     URLHashes (smDB (mgr s)) !! HashURL url = Some true).
Proof.
  rewrite AddURL_unfold, bind_run. unfold DB_mu_Lock.
  destruct (DB_mu (mgr s)) eqn:Hmu; [done|].
  unfold defer. rewrite bind_run. simpl.
  destruct (IsURLAllowed _ url) eqn:Hyes; simpl.
  - destruct (URLHashes (smDB (mgr s)) !! HashURL url) as [[]|] eqn:Hdup; simpl.
    + intros [= <- <-] _. split; [by apply unlock_after_lock|].
      right. by repeat split.
    + match goal with |- context [AddURL_accepted ?u ?c ?p ?s1] =>
        pose proof (only_io_AddURL_accepted u c p s1 e) as Hio;
        destruct (AddURL_accepted u c p s1) as [[a|e'|] s2] end; try done.
      intros [= -> <-] Hrej. destruct e; simpl in *; try done; by destruct Hio.
    + match goal with |- context [AddURL_accepted ?u ?c ?p ?s1] =>
        pose proof (only_io_AddURL_accepted u c p s1 e) as Hio;
        destruct (AddURL_accepted u c p s1) as [[a|e'|] s2] end; try done.
      intros [= -> <-] Hrej. destruct e; simpl in *; try done; by destruct Hio.
  - intros [= <- <-] _. split; [by apply unlock_after_lock|].
    left. by split.
Qed.

(** ** What the persisting steps write *)

Lemma write_then_rename path doc s r s' :
  (os_WriteFile (path +:+ ".tmp") doc;; os_Rename (path +:+ ".tmp") path) s
    = (r, s') ->
  r = Ok tt ->
  s' = mkSt (mgr s) (with_files (wld s) (replaced path doc (files (wld s)))).
Proof.
  rewrite bind_run. unfold os_WriteFile, os_Rename.
  case_bool_decide; [by intros [= <- _]|]. simpl.
  rewrite lookup_insert_eq. case_bool_decide; [by intros [= <- _]|].
  by intros [= _ <-] _.
Qed.

Lemma CreateNewSitemap_run s :
  CreateNewSitemap s =
  (Ok (Sprintf_sitemap (SitemapPrefix (smConfig (mgr s)))
         (Z.of_nat (length (Sitemaps (smDB (mgr s)))) + 1)),
   mkSt (with_DB (mgr s)
           (mkDatabase
              (Sitemaps (smDB (mgr s)) ++
               [mkSitemapInfo
                  (Sprintf_sitemap (SitemapPrefix (smConfig (mgr s)))
                     (Z.of_nat (length (Sitemaps (smDB (mgr s)))) + 1))
                  0 (clock (wld s))])
              (URLHashes (smDB (mgr s)))
              (Sprintf_sitemap (SitemapPrefix (smConfig (mgr s)))
                 (Z.of_nat (length (Sitemaps (smDB (mgr s)))) + 1))
              (LastUpdated (smDB (mgr s)))))
        (mkWorld (files (wld s)) (clock (wld s) + 1) (denied (wld s)))).
Proof. reflexivity. Qed.

Lemma SaveDB_Ok s s' :
  SaveDB s = (Ok tt, s') ->
  let db' := mkDatabase (Sitemaps (smDB (mgr s))) (URLHashes (smDB (mgr s)))
               (CurrentSitemap (smDB (mgr s))) (clock (wld s)) in
  DB_mu (mgr s) = false /\
  s' = mkSt (with_DB (mgr s) db')
         (mkWorld (replaced (smDBPath (mgr s)) (DBDoc db') (files (wld s)))
            (clock (wld s) + 1) (denied (wld s))).
Proof.
  unfold SaveDB. rewrite bind_run. unfold DB_mu_Lock.
  destruct (DB_mu (mgr s)) eqn:Hmu; [done|]. unfold defer.
  do 5 (rewrite bind_run; simpl).
  match goal with |- context [mbind ?k ?m ?s1] =>
    destruct (mbind k m s1) as [r s2] eqn:Hrun end.
  destruct r as [[]|e|]; try done. intros [= <-].
  apply (write_then_rename (smDBPath (mgr s))) in Hrun; [|done].
  subst s2. simpl. split; [done|].
  unfold with_DB, with_files. simpl. by rewrite Hmu.
Qed.

Lemma GenerateSitemapIndex_Ok s s' :
  GenerateSitemapIndex s = (Ok tt, s') ->
  s' = mkSt (mgr s)
         (with_files (wld s)
            (replaced
               (filepath_Join (OutputDir (smConfig (mgr s)))
                  "sitemap_index.xml")
               (IndexDoc (mkSitemapIndex SITEMAP_NAMESPACE
                            (index_entries (smConfig (mgr s))
                               (smDB (mgr s)))))
               (files (wld s)))).
Proof.
  unfold GenerateSitemapIndex. do 2 (rewrite bind_run; simpl).
  intros Hrun. by apply write_then_rename in Hrun.
Qed.

Lemma lookup_replaced path doc fs :
  replaced path doc fs !! path = Some (mkFile true doc).
Proof. unfold replaced. by rewrite lookup_insert_eq. Qed.

Lemma lookup_replaced_ne path doc fs p :
  p <> path -> p <> path +:+ ".tmp" -> replaced path doc fs !! p = fs !! p.
Proof.
  intros H1 H2. unfold replaced.
  by rewrite lookup_insert_ne, lookup_delete_ne, lookup_insert_ne.
Qed.

(** [LoadDB] when the file is there, readable, and decodes. *)
Lemma LoadDB_present s f db :
  fileLock (mgr s) = false ->
  files (wld s) !! smDBPath (mgr s) = Some f ->
  readable f = true ->
  content f = DBDoc db ->
  LoadDB s =
  (Ok tt,
   mkSt (mkSitemapManager (smConfig (mgr s)) db (smDBPath (mgr s))
           (smRobotsRules (mgr s)) false false) (wld s)).
Proof.
  intros Hfl Hf Hr Hc. unfold LoadDB. rewrite bind_run. unfold fileLock_Lock.
  rewrite Hfl. unfold defer. do 2 (rewrite bind_run; simpl).
  rewrite bool_decide_eq_false_2 by (by rewrite Hf).
  unfold mbind, M_bind, os_ReadFile. simpl. by rewrite Hf, Hr, Hc.
Qed.

Lemma LoadDB_Ok s s' :
  LoadDB s = (Ok tt, s') ->
  fileLock (mgr s) = false /\
  (files (wld s) !! smDBPath (mgr s) = None /\
   (let db' := mkDatabase [] ∅ "" (clock (wld s) + 1) in
    s' = mkSt (mkSitemapManager (smConfig (mgr s)) db' (smDBPath (mgr s))
                 (smRobotsRules (mgr s)) false false)
           (mkWorld (replaced (smDBPath (mgr s)) (DBDoc db') (files (wld s)))
              (clock (wld s) + 2) (denied (wld s))))
   \/
   exists f db,
     files (wld s) !! smDBPath (mgr s) = Some f /\ readable f = true /\
     content f = DBDoc db /\
     s' = mkSt (mkSitemapManager (smConfig (mgr s)) db (smDBPath (mgr s))
                  (smRobotsRules (mgr s)) false false) (wld s)).
Proof.
  destruct (fileLock (mgr s)) eqn:Hfl.
  { unfold LoadDB. rewrite bind_run. unfold fileLock_Lock. by rewrite Hfl. }
  intros Hrun. split; [done|].
  destruct (files (wld s) !! smDBPath (mgr s)) as [f|] eqn:Hf.
  - right. destruct (readable f) eqn:Hr; last first.
    { revert Hrun. unfold LoadDB. rewrite bind_run. unfold fileLock_Lock.
      rewrite Hfl. unfold defer. do 2 (rewrite bind_run; simpl).
      rewrite bool_decide_eq_false_2 by (by rewrite Hf).
      unfold mbind, M_bind, os_ReadFile. simpl. by rewrite Hf, Hr. }
    destruct (content f) as [db| | |] eqn:Hc.
    { exists f, db. repeat split; try done.
      rewrite (LoadDB_present s f db) in Hrun by done. congruence. }
    all: revert Hrun; unfold LoadDB; rewrite bind_run; unfold fileLock_Lock;
      rewrite Hfl; unfold defer; do 2 (rewrite bind_run; simpl);
      rewrite bool_decide_eq_false_2 by (by rewrite Hf);
      unfold mbind, M_bind, os_ReadFile; simpl; by rewrite Hf, Hr, Hc.
  - left. split; [done|]. revert Hrun.
    unfold LoadDB. rewrite bind_run. unfold fileLock_Lock.
    rewrite Hfl. unfold defer. do 2 (rewrite bind_run; simpl).
    rewrite bool_decide_eq_true_2 by done.
    unfold mbind at 1 2. unfold M_bind at 1 2. simpl.
    match goal with |- context [SaveDB ?s1] =>
      destruct (SaveDB s1) as [r s2] eqn:Hsave end.
    destruct r as [[]|e|]; try done. intros [= <-].
    apply SaveDB_Ok in Hsave as [_ ->]. simpl.
    unfold with_DB. simpl. by replace (clock (wld s) + 1 + 1) with (clock (wld s) + 2) by lia.
Qed.

(** ** Paths of the output directory *)

Lemma string_app_cons c s1 s2 : String c s1 +:+ s2 = String c (s1 +:+ s2).
Proof. reflexivity. Qed.

Lemma rchars_app s1 s2 : rchars (s1 +:+ s2) = rchars s2 ++ rchars s1.
Proof.
  unfold rchars. rewrite <-reverse_app. f_equal.
  induction s1 as [|c s1 IH]; [done|].
  rewrite string_app_cons. simpl. by rewrite IH.
Qed.

Lemma string_app_assoc s1 s2 s3 : (s1 +:+ s2) +:+ s3 = s1 +:+ s2 +:+ s3.
Proof.
  induction s1 as [|c s1 IH]; [done|]. rewrite !string_app_cons. by rewrite IH.
Qed.

(** Decides that two paths differ from their last characters. *)
Ltac paths_differ :=
  let E := fresh "E" in
  intros E; apply (f_equal rchars) in E;
  unfold DBPath, indexPath in E;
  unfold filepath_Join, Sprintf_sitemap in E;
  rewrite ?rchars_app in E; simpl in E; discriminate E.

Lemma DBPath_ne_index cfg : DBPath cfg <> indexPath cfg.
Proof. paths_differ. Qed.
Lemma DBPath_ne_index_tmp cfg : DBPath cfg <> indexPath cfg +:+ ".tmp".
Proof. paths_differ. Qed.
Lemma DBPath_ne_tmp cfg : DBPath cfg <> DBPath cfg +:+ ".tmp".
Proof. paths_differ. Qed.
Lemma sitemap_ne_DBPath cfg n :
  filepath_Join (OutputDir cfg) (Sprintf_sitemap (SitemapPrefix cfg) n)
  <> DBPath cfg.
Proof. paths_differ. Qed.
Lemma sitemap_ne_DBPath_tmp cfg n :
  filepath_Join (OutputDir cfg) (Sprintf_sitemap (SitemapPrefix cfg) n)
  <> DBPath cfg +:+ ".tmp".
Proof. paths_differ. Qed.
Lemma sitemap_ne_index_tmp cfg n :
  filepath_Join (OutputDir cfg) (Sprintf_sitemap (SitemapPrefix cfg) n)
  <> indexPath cfg +:+ ".tmp".
Proof. paths_differ. Qed.

Lemma pretty_N_go_app (x : N) (s : string) :
  pretty_N_go x s = pretty_N_go x "" +:+ s.
Proof.
  revert s. induction (N.lt_wf_0 x) as [x _ IH]; intros s.
  destruct (decide (x = 0)%N) as [->|Hx]; [done|].
  assert (x `div` 10 < x)%N as Hlt by (apply N.div_lt; lia).
  rewrite (pretty_N_go_step x s), (pretty_N_go_step x "") by lia.
  rewrite (IH _ Hlt (String _ s)), (IH _ Hlt (String _ "")).
  by rewrite string_app_assoc.
Qed.

(** A number printed with [%d] ends in a digit. *)
Lemma pretty_Z_ends_in_digit (n : Z) :
  exists t k, pretty n = t +:+ String (pretty_N_char k) "".
Proof.
  assert (forall x : N, exists t k,
            pretty x = t +:+ String (pretty_N_char k) "") as HN.
  { intros x. unfold pretty, pretty_N. case_decide as Hx.
    - by exists "", 0%N.
    - rewrite pretty_N_go_step by lia. rewrite pretty_N_go_app. eauto. }
  destruct n as [|p|p].
  - by exists "", 0%N.
  - apply (HN (N.pos p)).
  - destruct (HN (N.pos p)) as (t & k & Ht). exists ("-" +:+ t), k.
    change (pretty (Z.neg p)) with ("-" +:+ pretty (N.pos p)).
    by rewrite Ht, string_app_assoc.
Qed.

Lemma sitemap_ne_index cfg n :
  filepath_Join (OutputDir cfg) (Sprintf_sitemap (SitemapPrefix cfg) n)
  <> indexPath cfg.
Proof.
  destruct (pretty_Z_ends_in_digit n) as (t & k & Ht).
  intros E. apply (f_equal rchars) in E.
  unfold indexPath, filepath_Join, Sprintf_sitemap in E. rewrite Ht in E.
  rewrite !rchars_app in E. simpl in E.
  injection E as Hk _. revert Hk. unfold pretty_N_char.
  by repeat case_match.
Qed.

(** ** The commands *)

Lemma NewSitemapManager_Ok cfg robots w sm w1 :
  NewSitemapManager cfg robots w = (Ok sm, w1) ->
  smConfig sm = cfg /\ smDBPath sm = DBPath cfg /\
  smRobotsRules sm = (if RespectRobots cfg then robots else ∅) /\
  DB_mu sm = false /\ fileLock sm = false /\
  load_outcome cfg w (smDB sm) w1.
Proof.
  unfold NewSitemapManager.
  match goal with |- context [LoadDB ?s0] =>
    destruct (LoadDB s0) as [r s1] eqn:Hload end.
  destruct r as [[]|e|]; try done. intros [= <- <-].
  apply LoadDB_Ok in Hload as [_ Hload]. simpl in Hload.
  destruct Hload as [(Hnone & ->)|(f & db & Hf & Hr & Hc & ->)]; simpl.
  - destruct (RespectRobots cfg); simpl; repeat split; try done;
      left; by repeat split.
  - destruct (RespectRobots cfg); simpl; repeat split; try done;
      right; split; try done; by exists f.
Qed.

Lemma createCmd_Ok cfg robots w w' :
  createCmd cfg robots w = (Ok tt, w') ->
  exists db w1,
    load_outcome cfg w db w1 /\
    w' = mkWorld
           (replaced (indexPath cfg)
              (IndexDoc (mkSitemapIndex SITEMAP_NAMESPACE
                           (index_entries cfg (created cfg db (clock w1)))))
              (replaced (DBPath cfg) (DBDoc (created cfg db (clock w1)))
                 (files w1)))
           (clock w1 + 2) (denied w1).
Proof.
  unfold createCmd.
  destruct (NewSitemapManager cfg robots w) as [r w1] eqn:Hnew.
  destruct r as [sm|e|]; try done.
  apply NewSitemapManager_Ok in Hnew as (Hcfg & Hpath & _ & Hmu & _ & Hload).
  rewrite bind_run, CreateNewSitemap_run. rewrite bind_run.
  match goal with |- context [SaveDB ?s1] =>
    destruct (SaveDB s1) as [r s2] eqn:Hsave end.
  destruct r as [[]|e|]; try (by destruct s2). 
  apply SaveDB_Ok in Hsave as [_ ->]. simpl.
  match goal with |- context [GenerateSitemapIndex ?s1] =>
    destruct (GenerateSitemapIndex s1) as [r s3] eqn:Hgen end.
  intros [= -> <-]. apply GenerateSitemapIndex_Ok in Hgen as ->. simpl.
  exists (smDB sm), w1. split; [done|].
  rewrite Hcfg, Hpath. unfold created, with_files, indexPath. simpl.
  f_equal. lia.
Qed.

(** [smx add] never reports success. *)
Lemma addCmd_never_Ok cfg robots url changefreq priority w a :
  fst (addCmd cfg robots url changefreq priority w) <> Ok a.
Proof.
  unfold addCmd.
  destruct (NewSitemapManager cfg robots w) as [[sm|e|] w1]; try done.
  match goal with |- context [AddURL ?u ?c ?p ?s] =>
    pose proof (AddURL_never_returns_nil u c p s a) as Hno;
    destruct (AddURL u c p s) as [r s1] end.
  done.
Qed.

Lemma only_io_os_Stat_IsNotExist path :
  only_io_errors (os_Stat_IsNotExist path).
Proof. by intros s e. Qed.

Lemma only_io_LoadDB : only_io_errors LoadDB.
Proof.
  unfold LoadDB. apply only_io_bind; [apply only_io_fileLock_Lock|].
  intros _. apply only_io_defer.
  apply only_io_bind; [apply only_io_get|]. intros s.
  apply only_io_bind; [apply only_io_os_Stat_IsNotExist|]. intros [].
  - apply only_io_bind; [apply only_io_time_Now|]. intros now.
    apply only_io_bind; [apply only_io_newDB|]. intros _.
    apply only_io_SaveDB.
  - apply only_io_bind; [apply only_io_os_ReadFile|]. intros data.
    apply only_io_bind; [apply only_io_newDB|]. intros _.
    apply only_io_bind; [apply only_io_json_Unmarshal|]. intros db.
    apply only_io_putDB.
Qed.

(** A rejected [smx add] leaves the world as [LoadDB] left it; when the
    store file was there, that is the world the command started in. *)
Lemma addCmd_rejection_keeps_world cfg robots url changefreq priority w e w' :
  addCmd cfg robots url changefreq priority w = (Err e, w') ->
  is_rejection e ->
  (exists db, load_outcome cfg w db w') /\
  (is_Some (files w !! DBPath cfg) -> w' = w).
Proof.
  unfold addCmd.
  destruct (NewSitemapManager cfg robots w) as [[sm|e0|] w1] eqn:Hnew;
    [| |done].
  - apply NewSitemapManager_Ok in Hnew as (_ & _ & _ & _ & _ & Hload).
    destruct (AddURL _ _ _ _) as [r s1] eqn:Hadd. intros [= -> <-] Hrej.
    apply AddURL_rejection_inv in Hadd as [-> _]; [|done]. simpl.
    split; [by eauto|]. intros [f Hf].
    destruct Hload as [(Hnone & _)|(-> & _)]; [congruence|done].
  - intros [= -> <-] Hrej. exfalso.
    revert Hnew. unfold NewSitemapManager.
    match goal with |- context [LoadDB ?s0] =>
      pose proof (only_io_LoadDB s0 e) as Hio;
      destruct (LoadDB s0) as [[[]|e1|] s1] end; try done.
    intros [= -> _]. destruct e; simpl in *; try done; by destruct Hio.
Qed.


(** ** States the commands reach *)

Lemma Sprintf_sitemap_nonempty prefix n : Sprintf_sitemap prefix n <> "".
Proof.
  intros E. apply (f_equal rchars) in E. unfold Sprintf_sitemap in E.
  rewrite !rchars_app in E. simpl in E. discriminate E.
Qed.

Lemma store_inv_created cfg db t :
  store_inv db -> store_inv (created cfg db t).
Proof.
  intros (Hh & Hc & _ & Hn). unfold store_inv, created, last_Filename. simpl.
  repeat split; [done| | |].
  - apply Forall_app. split; [done|]. by repeat constructor.
  - by rewrite last_snoc.
  - apply Forall_app. split; [done|]. repeat constructor. simpl.
    apply Sprintf_sitemap_nonempty.
Qed.

Lemma lookup_DBPath_after_create cfg ix doc fs :
  replaced (indexPath cfg) ix (replaced (DBPath cfg) doc fs) !! DBPath cfg
  = Some (mkFile true doc).
Proof.
  rewrite lookup_replaced_ne
    by auto using DBPath_ne_index, DBPath_ne_index_tmp.
  apply lookup_replaced.
Qed.

Lemma reachable_store_inv cfg w db :
  reachable cfg w -> stored cfg w db -> store_inv db.
Proof.
  intros Hreach. revert db.
  induction Hreach as [w Hw|w robots url cf p w' _ _ Hadd
                      |w robots w' _ IH Hcreate|w t d _ IH]; intros db Hdb.
  - destruct Hdb as (f & Hf & _). by rewrite Hw, lookup_empty in Hf.
  - by destruct (addCmd_never_Ok cfg robots url cf p w tt); rewrite Hadd.
  - apply createCmd_Ok in Hcreate as (db0 & w1 & Hload & ->).
    destruct Hdb as (f & Hf & Hc). simpl in Hf.
    rewrite lookup_DBPath_after_create in Hf. injection Hf as <-.
    simpl in Hc. injection Hc as <-.
    apply store_inv_created.
    destruct Hload as [(_ & -> & _)|(-> & f0 & Hf0 & _ & Hc0)].
    + by repeat split.
    + apply IH. by exists f0.
  - apply IH. destruct Hdb as (f & Hf & Hc). by exists f.
Qed.

Lemma store_inv_no_partition db :
  store_inv db -> CurrentSitemap db = "" <-> Sitemaps db = [].
Proof.
  intros (_ & _ & Hcur & Hn). rewrite Hcur. unfold last_Filename.
  destruct (Sitemaps db) as [|info l] using rev_ind; [done|].
  rewrite last_snoc. simpl. apply Forall_app in Hn as [_ Hn].
  rewrite Forall_singleton in Hn. split; [intros E; by destruct Hn|].
  intros Hnil. by destruct (app_cons_not_nil l [] info).
Qed.

(** ** The policy filter *)

Lemma IsURLAllowed_range_false url rules p b :
  (p, b) ∈ rules -> strings_HasPrefix url p = true ->
  IsURLAllowed_range url rules = false.
Proof.
  induction rules as [|[q c] rules IH]; intros Hin Hp; [by inversion Hin|].
  simpl. apply elem_of_cons in Hin as [[= <- <-]|Hin]; [by rewrite Hp|].
  destruct (strings_HasPrefix url q); [done|]. by apply IH.
Qed.

(** With [RespectRobots] on, a URL that starts with one of the loaded
    prefixes is rejected with [PolicyRejected], whatever the other prefixes,
    and nothing changes. *)
Lemma AddURL_rejects_matching_prefix url changefreq priority s p b :
  DB_mu (mgr s) = false ->
  RespectRobots (smConfig (mgr s)) = true ->
  smRobotsRules (mgr s) !! p = Some b ->
  strings_HasPrefix url p = true ->
  AddURL url changefreq priority s = (Err (PolicyRejected url), s).
Proof.
  intros Hmu Hrr Hp Hpre. apply AddURL_policy_rejects; [done|].
  unfold IsURLAllowed. rewrite Hrr. simpl.
  apply (IsURLAllowed_range_false _ _ p b); [|done].
  by apply elem_of_map_to_list.
Qed.

(** ** The index generator *)

Lemma substring_all s : String.substring 0 (String.length s) s = s.
Proof. induction s as [|c s IH]; simpl; [done|]. by rewrite IH. Qed.

Lemma TrimSuffix_slash s : strings_TrimSuffix s "/" = spec_strip_slash s.
Proof.
  unfold strings_TrimSuffix, strings_HasSuffix.
  induction s as [|c s IH]; [done|].
  destruct s as [|d s].
  - simpl. destruct (Ascii.eqb_spec c "/") as [->|Hne]; [done|].
    simpl. destruct (Ascii.eqb_spec c "/"); [done|]. done.
  - change (spec_strip_slash (String c (String d s)))
      with (String c (spec_strip_slash (String d s))).
    rewrite <-IH. clear IH. simpl String.length. simpl Nat.leb.
    replace (S (S (String.length s)) - 1)%nat with (S (String.length s)) by lia.
    replace (S (String.length s) - 1)%nat with (String.length s) by lia.
    simpl andb.
    change (String.substring (S (String.length s)) 1 (String c (String d s)))
      with (String.substring (String.length s) 1 (String d s)).
    destruct (String.eqb _ "/"); [|done].
    by change (String.substring 0 (S (String.length s)) (String c (String d s)))
      with (String c (String.substring 0 (String.length s) (String d s))).
Qed.

Lemma index_entries_locations cfg db :
  Entry_Loc <$> index_entries cfg db =
  (fun info => spec_location (BaseURL cfg) (Filename info)) <$> Sitemaps db.
Proof.
  unfold index_entries, spec_location. rewrite <-list_fmap_compose.
  apply list_fmap_ext. intros _ info _. simpl. by rewrite TrimSuffix_slash.
Qed.

(** ** The rotation rule *)

Lemma NeedNewSitemap_range_find current l :
  NeedNewSitemap_range current l =
  match find (fun info => String.eqb (Filename info) current) l with
  | Some info => MAX_URLS_PER_SITEMAP <=? URLCount info
  | None => false
  end.
Proof.
  induction l as [|info l IH]; simpl; [done|].
  by destruct (String.eqb (Filename info) current).
Qed.

Lemma GetCurrentSitemap_run s :
  GetCurrentSitemap s =
  if creates_new (smDB (mgr s)) then CreateNewSitemap s
  else (Ok (CurrentSitemap (smDB (mgr s))), s).
Proof.
  unfold GetCurrentSitemap, creates_new. rewrite bind_run. simpl.
  by destruct (_ || _).
Qed.

(** On a store whose current name is empty exactly when it has no partition,
    [GetCurrentSitemap] creates a partition exactly when there is none or
    the current one holds [MAX_URLS_PER_SITEMAP] entries or more. *)
Lemma GetCurrentSitemap_creates_iff db :
  (CurrentSitemap db = "" <-> Sitemaps db = []) ->
  creates_new db = true <->
  Sitemaps db = [] \/
  exists info, current_info db = Some info /\
               MAX_URLS_PER_SITEMAP <= URLCount info.
Proof.
  intros Hnone. unfold creates_new, NeedNewSitemap, current_info.
  rewrite NeedNewSitemap_range_find.
  destruct (String.eqb_spec (CurrentSitemap db) "") as [Hcur|Hcur]; simpl.
  - split; [|done]. intros _. left. by apply Hnone.
  - destruct (find _ _) as [info|]; split.
    + intros Hle%Z.leb_le. right. by exists info.
    + intros [Hnil|(info' & [= <-] & Hle)]; [by destruct Hcur; apply Hnone|].
      by apply Z.leb_le.
    + done.
    + intros [Hnil|(info' & [=] & _)]. by destruct Hcur; apply Hnone.
Qed.

(** ** The claims *)

(** C8. A call of [AddURL] that ends in [PolicyRejected] or [DuplicateURL]
    leaves the world (the store file, every partition document, the index
    document, the clock) and the manager exactly as they were. *)
Theorem AddURL_rejection_changes_nothing url changefreq priority s e s' :
  AddURL url changefreq priority s = (Err e, s') ->
  is_rejection e ->
  files (wld s') = files (wld s) /\ s' = s.
Proof.
  intros Hrun Hrej.
  destruct (AddURL_rejection_inv _ _ _ _ _ _ Hrun Hrej) as [-> _]. done.
Qed.




(** C10. [CreateNewSitemap] writes no file. A create command that reports
    success has stored the loaded store with one record appended (the new
    name, no entry) and that name as the current partition, has written an
    index that lists every stored partition, the new one last, and has left
    the path of the new partition's document as it was: absent before,
    absent after. *)
Theorem createCmd_writes_no_partition_document :
  (forall s, files (wld (snd (CreateNewSitemap s))) = files (wld s)) /\
  (forall cfg robots w w',
     createCmd cfg robots w = (Ok tt, w') ->
     exists db w1 t,
       load_outcome cfg w db w1 /\
       let filename :=
         Sprintf_sitemap (SitemapPrefix cfg)
           (Z.of_nat (length (Sitemaps db)) + 1) in
       let db' :=
         mkDatabase (Sitemaps db ++ [mkSitemapInfo filename 0 t])
           (URLHashes db) filename (t + 1) in
       files w' !! DBPath cfg = Some (mkFile true (DBDoc db')) /\
       (exists ix,
          files w' !! indexPath cfg = Some (mkFile true (IndexDoc ix)) /\
          Entry_Loc <$> Index_Sitemaps ix =
            (fun info => spec_location (BaseURL cfg) (Filename info))
              <$> (Sitemaps db ++ [mkSitemapInfo filename 0 t])) /\
       files w' !! filepath_Join (OutputDir cfg) filename
         = files w !! filepath_Join (OutputDir cfg) filename).
Proof.
  split; [done|]. intros cfg robots w w' Hcreate.
  apply createCmd_Ok in Hcreate as (db & w1 & Hload & ->).
  exists db, w1, (clock w1). split; [done|]. simpl.
  split; [apply lookup_DBPath_after_create|]. split.
  - eexists. split; [apply lookup_replaced|]. simpl.
    apply index_entries_locations.
  - rewrite !lookup_replaced_ne
      by auto using sitemap_ne_index, sitemap_ne_index_tmp,
           sitemap_ne_DBPath, sitemap_ne_DBPath_tmp.
    destruct Hload as [(_ & _ & ->)|(-> & _)]; [|done]. simpl.
    by rewrite lookup_replaced_ne
      by auto using sitemap_ne_DBPath, sitemap_ne_DBPath_tmp.
Qed.

(** ** Where the code parts from the spec *)

(** C1. With the disallowed prefix "/private" loaded, the prefix test runs
    against the whole URL: "https://example.com/private/page" does not start
    with "/private", [IsURLAllowed] lets it pass, and the add is not
    rejected. It goes on like the add of "https://example.com/public/page",
    and neither returns: both block in [SaveDB]. *)
Theorem private_page_is_not_rejected :
  let rules : gmap string bool := {["/private" := true]} in
  let sm := mkSitemapManager DefaultConfig (mkDatabase [] ∅ "" 0)
              (DBPath DefaultConfig) rules false false in
  strings_HasPrefix "https://example.com/private/page" "/private" = false /\
  IsURLAllowed sm "https://example.com/private/page" = true /\
  fst (addCmd DefaultConfig rules "https://example.com/private/page" ""
         0%float empty_world) = Deadlock /\
  fst (addCmd DefaultConfig rules "https://example.com/public/page" ""
         0%float empty_world) = Deadlock.
Proof. by vm_compute. Qed.

(** C2. The first add into an empty output directory writes the partition
    document and then blocks: the store on disk still has no partition and
    no hash, so no sequence of adds fills a partition. *)
Theorem first_add_never_reaches_the_store :
  let r := addCmd DefaultConfig ∅ "https://example.com/a" "" 0%float
             empty_world in
  fst r = Deadlock /\
  files (snd r) !! DBPath DefaultConfig
    = Some (mkFile true (DBDoc (mkDatabase [] ∅ "" 1))) /\
  files (snd r) !! "./sitemaps/sitemap_1.xml"
    = Some (mkFile true
              (URLSetDoc
                 (mkURLSet SITEMAP_NAMESPACE
                    [mkURL "https://example.com/a"
                       (time_Format 3 "2006-01-02") "weekly" 0.5%float]))).
Proof. by vm_compute. Qed.

(** C3. Adding the same URL in two runs: the first does not return, and the
    second is not refused as a duplicate, it appends the URL to the
    partition document a second time and blocks as well. *)
Theorem second_add_is_not_a_duplicate :
  let url := "https://example.com/a" in
  let r1 := addCmd DefaultConfig ∅ url "" 0%float empty_world in
  let r2 := addCmd DefaultConfig ∅ url "" 0%float (snd r1) in
  fst r1 = Deadlock /\ fst r2 = Deadlock /\
  exists u,
    files (snd r2) !! "./sitemaps/sitemap_1.xml"
      = Some (mkFile true (URLSetDoc u)) /\
    URL_Loc <$> URLs u = [url; url].
Proof.
  simpl. split; [by vm_compute|]. split; [by vm_compute|].
  eexists. split; [by vm_compute|]. done.
Qed.

(** C6. The current partition's document is there but does not decode, or
    may not be read: [LoadSitemap] returns the error, [AddURL] drops it,
    starts from an empty document and replaces the file by a document with
    the new entry alone; the add does not fail, it blocks in [SaveDB]. *)
Theorem unreadable_partition_is_overwritten :
  let path := "./sitemaps/sitemap_1.xml" in
  let w1 := snd (createCmd DefaultConfig ∅ empty_world) in
  let old := mkURLSet SITEMAP_NAMESPACE
               [mkURL "https://example.com/old" "2024-01-01" "weekly"
                  0.5%float] in
  let corrupt :=
    mkWorld (<[path := mkFile true (Garbage "<urlset")]> (files w1))
      (clock w1) ∅ in
  let unreadable :=
    mkWorld (<[path := mkFile false (URLSetDoc old)]> (files w1))
      (clock w1) ∅ in
  let sm := mkSitemapManager DefaultConfig (mkDatabase [] ∅ "" 0)
              (DBPath DefaultConfig) ∅ false false in
  let new := mkURLSet SITEMAP_NAMESPACE
               [mkURL "https://example.com/a" (time_Format 4 "2006-01-02")
                  "weekly" 0.5%float] in
  fst (LoadSitemap "sitemap_1.xml" (mkSt sm corrupt)) = Err ErrSyntax /\
  fst (LoadSitemap "sitemap_1.xml" (mkSt sm unreadable))
    = Err (ErrPermission path) /\
  (let r := addCmd DefaultConfig ∅ "https://example.com/a" "" 0%float
              corrupt in
   fst r = Deadlock /\
   files (snd r) !! path = Some (mkFile true (URLSetDoc new))) /\
  (let r := addCmd DefaultConfig ∅ "https://example.com/a" "" 0%float
              unreadable in
   fst r = Deadlock /\
   files (snd r) !! path = Some (mkFile true (URLSetDoc new))).
Proof. by vm_compute. Qed.

(** C7. An add never comes to regenerate the index: after the first add
    into an empty output directory the partition document is there and no
    index document is. *)
Theorem add_leaves_no_index :
  let r := addCmd DefaultConfig ∅ "https://example.com/a" "" 0%float
             empty_world in
  fst r = Deadlock /\
  is_Some (files (snd r) !! "./sitemaps/sitemap_1.xml") /\
  files (snd r) !! indexPath DefaultConfig = None.
Proof.
  simpl. split; [by vm_compute|]. split; [|by vm_compute].
  vm_compute. eauto.
Qed.

End Properties.

(** ** The claims at concrete inputs *)

Lemma run_Ok {A} (c : result A * World) (a : A) :
  fst c = Ok a -> c = (Ok a, snd c).
Proof. destruct c as [r w]. simpl. by intros ->. Qed.

Lemma reachable_after_create `{Platform} :
  reachable DefaultConfig world_after_create.
Proof.
  apply (reach_create _ empty_world ∅); [by apply reach_fresh|].
  unfold world_after_create.
  apply (run_Ok (createCmd DefaultConfig ∅ empty_world) tt). by vm_compute.
Qed.

Lemma reachable_after_two_creates `{Platform} :
  reachable DefaultConfig world_after_two_creates.
Proof.
  apply (reach_create _ world_after_create ∅);
    [apply reachable_after_create|].
  unfold world_after_two_creates.
  apply (run_Ok (createCmd DefaultConfig ∅ world_after_create) tt).
  by vm_compute.
Qed.




(** C8 at a URL that starts with a loaded prefix. *)
Lemma AddURL_rejection_changes_nothing_witness :
  let s := mkSt (mkSitemapManager DefaultConfig (mkDatabase [] ∅ "" 0)
                   (DBPath DefaultConfig) {["/private" := true]} false false)
             empty_world in
  @AddURL toy_platform "/private/page" "weekly" 0.5%float s
    = (Err (PolicyRejected "/private/page"), s) /\
  is_rejection (PolicyRejected "/private/page") /\
  files (wld s) = files (wld s) /\ s = s.
Proof.
  assert (@AddURL toy_platform "/private/page" "weekly" 0.5%float
            (mkSt (mkSitemapManager DefaultConfig (mkDatabase [] ∅ "" 0)
                     (DBPath DefaultConfig) {["/private" := true]} false
                     false) empty_world)
          = (Err (PolicyRejected "/private/page"),
             mkSt (mkSitemapManager DefaultConfig (mkDatabase [] ∅ "" 0)
                     (DBPath DefaultConfig) {["/private" := true]} false
                     false) empty_world)) as Hrun by (by vm_compute).
  split; [exact Hrun|]. split; [exact I|].
  exact (@AddURL_rejection_changes_nothing toy_platform _ _ _ _ _ _ Hrun I).
Defined.


(** C10 at the first create command in an empty output directory. *)
Lemma createCmd_writes_no_partition_document_witness :
  @createCmd toy_platform DefaultConfig ∅ empty_world
    = (Ok tt, @world_after_create toy_platform) /\
  exists db w1 t,
    load_outcome DefaultConfig empty_world db w1 /\
    let filename :=
      Sprintf_sitemap (SitemapPrefix DefaultConfig)
        (Z.of_nat (length (Sitemaps db)) + 1) in
    let db' :=
      mkDatabase (Sitemaps db ++ [mkSitemapInfo filename 0 t])
        (URLHashes db) filename (t + 1) in
    files (@world_after_create toy_platform) !! DBPath DefaultConfig
      = Some (mkFile true (DBDoc db')) /\
    (exists ix,
       files (@world_after_create toy_platform) !! indexPath DefaultConfig
         = Some (mkFile true (IndexDoc ix)) /\
       Entry_Loc <$> Index_Sitemaps ix =
         (fun info => spec_location (BaseURL DefaultConfig) (Filename info))
           <$> (Sitemaps db ++ [mkSitemapInfo filename 0 t])) /\
    files (@world_after_create toy_platform)
      !! filepath_Join (OutputDir DefaultConfig) filename
    = files empty_world !! filepath_Join (OutputDir DefaultConfig) filename.
Proof.
  assert (@createCmd toy_platform DefaultConfig ∅ empty_world
          = (Ok tt, @world_after_create toy_platform)) as Hrun
    by (unfold world_after_create;
        apply (run_Ok (createCmd DefaultConfig ∅ empty_world) tt);
        by vm_compute).
  split; [exact Hrun|].
  exact (proj2 (@createCmd_writes_no_partition_document toy_platform)
           DefaultConfig ∅ empty_world _ Hrun).
Defined.
